(** * GManager icon generator: a shallow embedding of [generate_icons.py]

    The script draws a lock badge with Pillow ([PIL.Image], [PIL.ImageDraw])
    at several sizes and writes PNG and ICO files.  This development embeds

    - the Python values the script manipulates (integers as [Z], the one
      float it computes, colour tuples, RGBA rasters);
    - the process state it acts on (directories, files, standard output) as
      an explicit [World], threaded by a state-and-exception monad [M];
    - the three functions [create_icon], [create_ico_file] and [main],
      statement by statement.

    Pillow itself is not part of the repository.  Its filled [rectangle] is
    modelled exactly (an inclusive box of pixels).  The scan conversion of
    curved shapes is kept abstract: a [Rasterizer] says which pixels a
    rounded rectangle, an arc and an ellipse cover, and [RasterizerLaws]
    states the few facts about coverage the proofs rely on.  [Reference]
    gives one executable rasterizer satisfying the laws. *)

From Stdlib Require Import ZArith String Ascii List Lia.
From stdpp Require Import base option list gmap strings fin_maps pretty.

Local Open Scope string_scope.
Local Open Scope Z_scope.

(** ** Python values *)

(** Exceptions the modelled calls can raise. *)
Inductive exn := ValueError | IndexError.

(** The script computes a single float, [keyhole_radius * 1.5], and adds an
    integer to it.  Every such value is a multiple of one half, which binary
    floating point represents exactly (up to 2^53), so a float is modelled
    by its number of halves. *)
Record pyfloat := Halves { halves : Z }.

(** [n * 1.5] for an integer [n]. *)
Definition int_mul_1_5 (n : Z) : pyfloat := Halves (3 * n).

(** [n + f] for an integer [n] and a float [f]. *)
Definition int_add_float (n : Z) (f : pyfloat) : pyfloat :=
  Halves (2 * n + halves f).

(** A coordinate as Pillow receives it: a Python int or a Python float. *)
Inductive num := PyInt (z : Z) | PyFloat (f : pyfloat).
Coercion PyInt : Z >-> num.

(** Pillow's C layer turns each coordinate into a C [int] with a cast, which
    truncates toward zero. *)
Definition c_int (n : num) : Z :=
  match n with
  | PyInt z => z
  | PyFloat f => Z.quot (halves f) 2
  end.

(** A colour argument: a 3-tuple or a 4-tuple of ints. *)
Inductive color := RGB (r g b : Z) | RGBA (r g b a : Z).

(** One stored RGBA pixel. *)
Definition pixel := (Z * Z * Z * Z)%type.

Definition alpha (p : pixel) : Z := p.2.

(** [ImageDraw] turns a colour into the ink it stores; on an RGBA image a
    3-tuple gets alpha 255. *)
Definition ink_of (c : color) : pixel :=
  match c with
  | RGB r g b => (r, g, b, 255)
  | RGBA r g b a => (r, g, b, a)
  end.

Definition white_ink : pixel := (255, 255, 255, 255).

(** ** Boxes *)

(** The [xy] argument of a drawing call, [[x0, y0, x1, y1]]. *)
Record BBox := Box { bx0 : num; by0 : num; bx1 : num; by1 : num }.

(** The same box in whole pixels. *)
Record Rect := MkRect { rx0 : Z; ry0 : Z; rx1 : Z; ry1 : Z }.

Definition px_box (xy : BBox) : Rect :=
  MkRect (c_int (bx0 xy)) (c_int (by0 xy)) (c_int (bx1 xy)) (c_int (by1 xy)).

(** Pixel [(x, y)] lies in the box, borders included. *)
Definition in_rect (b : Rect) (x y : Z) : bool :=
  (rx0 b <=? x) && (x <=? rx1 b) && (ry0 b <=? y) && (y <=? ry1 b).

(** Pillow refuses a box whose second corner is left of or above the first. *)
Definition inverted (b : Rect) : bool :=
  (rx1 b <? rx0 b) || (ry1 b <? ry0 b).

(** ** Rasters *)

Record Image := MkImage {
  im_mode : string;
  im_width : Z;
  im_height : Z;
  im_rows : list (list pixel)
}.

(** The buffer has [im_height] rows of [im_width] pixels each. *)
Definition well_shaped (img : Image) : Prop :=
  0 <= im_width img /\ 0 <= im_height img /\
  length (im_rows img) = Z.to_nat (im_height img) /\
  Forall (fun row => length row = Z.to_nat (im_width img)) (im_rows img).

(** The stored pixel at column [x], row [y]; [None] outside the raster. *)
Definition pixel_at (img : Image) (x y : Z) : option pixel :=
  if (x <? 0) || (y <? 0) then None
  else im_rows img !! Z.to_nat y ≫= λ row, row !! Z.to_nat x.

(** Overwrite with [ink] every pixel of the raster selected by [mask].  The
    drawing context of the script has the mode of its image, so Pillow
    stores the ink as it is: nothing is blended. *)
Definition paint (mask : Z -> Z -> bool) (ink : pixel) (img : Image) : Image :=
  MkImage (im_mode img) (im_width img) (im_height img)
    (imap (λ j row,
       imap (λ i p, if mask (Z.of_nat i) (Z.of_nat j) then ink else p) row)
     (im_rows img)).

(** ** The drawing calls of the script *)

Inductive DrawCall :=
| RoundedRectangle (xy : BBox) (radius : Z) (fill : color)
| Arc (xy : BBox) (start stop : Z) (fill : color) (width : Z)
| Ellipse (xy : BBox) (fill : color)
| Rectangle (xy : BBox) (fill : color).

Definition call_box (c : DrawCall) : BBox :=
  match c with
  | RoundedRectangle xy _ _ | Arc xy _ _ _ _ | Ellipse xy _ | Rectangle xy _ => xy
  end.

Definition call_fill (c : DrawCall) : color :=
  match c with
  | RoundedRectangle _ _ f | Arc _ _ _ f _ | Ellipse _ f | Rectangle _ f => f
  end.

(** ** The scan conversion of Pillow, as an interface *)

(** Which pixels each curved shape covers.  Coverage depends on the geometry
    only; the raster clips it. *)
Class Rasterizer := {
  rounded_rectangle_mask : Rect -> Z -> Z -> Z -> bool;
  arc_mask : Rect -> Z -> Z -> Z -> Z -> Z -> bool;
  ellipse_mask : Rect -> Z -> Z -> bool
}.

(** Facts about coverage that hold of Pillow's scan conversion:
    a shape never leaves its bounding box, and a filled ellipse whose box
    has positive, even width covers its middle column from top to bottom. *)
Class RasterizerLaws (R : Rasterizer) : Prop := {
  rounded_rectangle_inside : forall b r x y,
    rounded_rectangle_mask b r x y = true -> in_rect b x y = true;
  arc_inside : forall b s e wd x y,
    arc_mask b s e wd x y = true -> in_rect b x y = true;
  ellipse_inside : forall b x y,
    ellipse_mask b x y = true -> in_rect b x y = true;
  ellipse_middle_column : forall b x y,
    rx0 b < rx1 b -> ry0 b < ry1 b ->
    2 * x = rx0 b + rx1 b -> ry0 b <= y <= ry1 b ->
    ellipse_mask b x y = true
}.

(** ** Process state *)

(** What a save call hands to Pillow's encoder: the format, the image and,
    for ICO, the [sizes] argument as the script passes it.  The byte layout
    is the encoder's. *)
Inductive File :=
| PNG_file (img : Image)
| ICO_file (img : Image) (sizes : list (Z * Z)).

Record World := MkWorld {
  fs_dirs : gset string;
  fs_files : gmap string File;
  stdout : list string;
  draw_log : list DrawCall   (* ghost: the drawing calls made so far *)
}.

Inductive outcome (A : Type) :=
| Returns (a : A) (w : World)
| Raises (e : exn) (w : World).
Arguments Returns {A} a w.
Arguments Raises {A} e w.

(** Computations on the world that return or raise. *)
Definition M (A : Type) : Type := World -> outcome A.

#[global] Instance M_ret : MRet M := λ A a w, Returns a w.
#[global] Instance M_bind : MBind M := λ A B f m w,
  match m w with
  | Returns a w' => f a w'
  | Raises e w' => Raises e w'
  end.

Definition raise {A} (e : exn) : M A := λ w, Raises e w.

(** [for x in xs: s = body x s]. *)
Fixpoint for_each {A S : Type} (xs : list A) (body : A -> S -> M S) (s : S) : M S :=
  match xs with
  | [] => mret s
  | x :: rest => s' ← body x s; for_each rest body s'
  end.

(** ** Library calls *)

Section Library.
Context {R : Rasterizer}.

(** [Image.new(mode, size, color)]. *)
Definition Image_new (mode : string) (size : Z * Z) (c : color) : M Image :=
  if (size.1 <? 0) || (size.2 <? 0) then raise ValueError
  else mret (MkImage mode size.1 size.2
               (replicate (Z.to_nat size.2) (replicate (Z.to_nat size.1) (ink_of c)))).

(** The pixels a call covers: an exact box for [rectangle], the
    rasterizer's answer for the curved shapes. *)
Definition call_mask (c : DrawCall) : Z -> Z -> bool :=
  match c with
  | RoundedRectangle xy radius _ => rounded_rectangle_mask (px_box xy) radius
  | Arc xy start stop _ width => arc_mask (px_box xy) start stop width
  | Ellipse xy _ => ellipse_mask (px_box xy)
  | Rectangle xy _ => in_rect (px_box xy)
  end.

(** One call on the drawing context of [img]: it is logged, refused when
    its box is inverted, and otherwise paints the covered pixels. *)
Definition invoke (c : DrawCall) (img : Image) : M Image := λ w,
  let w' := MkWorld (fs_dirs w) (fs_files w) (stdout w) (draw_log w ++ [c]) in
  if inverted (px_box (call_box c)) then Raises ValueError w'
  else Returns (paint (call_mask c) (ink_of (call_fill c)) img) w'.

(** [draw.rounded_rectangle(xy, radius=radius, fill=fill)]. *)
Definition rounded_rectangle (img : Image) (xy : BBox) (radius : Z) (fill : color) : M Image :=
  invoke (RoundedRectangle xy radius fill) img.

(** [draw.arc(xy, start=start, end=stop, fill=fill, width=width)]. *)
Definition arc (img : Image) (xy : BBox) (start stop : Z) (fill : color) (width : Z) : M Image :=
  invoke (Arc xy start stop fill width) img.

(** [draw.ellipse(xy, fill=fill)]. *)
Definition ellipse (img : Image) (xy : BBox) (fill : color) : M Image :=
  invoke (Ellipse xy fill) img.

(** [draw.rectangle(xy, fill=fill)]. *)
Definition rectangle (img : Image) (xy : BBox) (fill : color) : M Image :=
  invoke (Rectangle xy fill) img.

(** [img.save(path, 'PNG')].  The encoder accepts every image and the file
    system every write: I/O errors are outside the model, and so is
    Pillow's refusal to encode an empty image.  What is stated below about a
    saved file is stated for positive sizes. *)
Definition save_png (img : Image) (path : string) : M unit := λ w,
  Returns tt (MkWorld (fs_dirs w) (<[path := PNG_file img]> (fs_files w))
                (stdout w) (draw_log w)).

(** [img.save(path, format='ICO', sizes=sizes)]. *)
Definition save_ico (img : Image) (path : string) (sizes : list (Z * Z)) : M unit := λ w,
  Returns tt (MkWorld (fs_dirs w) (<[path := ICO_file img sizes]> (fs_files w))
                (stdout w) (draw_log w)).

(** [print(text)]: one more entry on standard output, one entry per call;
    the text may itself contain line feeds. *)
Definition print (line : string) : M unit := λ w,
  Returns tt (MkWorld (fs_dirs w) (fs_files w) (stdout w ++ [line]) (draw_log w)).

(** [os.makedirs(path, exist_ok=True)]: the directory exists afterwards;
    nothing is raised when it existed before. *)
Definition os_makedirs (path : string) : M unit := λ w,
  Returns tt (MkWorld ({[path]} ∪ fs_dirs w) (fs_files w) (stdout w) (draw_log w)).

(** [os.path.join(a, b)] on POSIX. *)
Definition os_path_join (a b : string) : string :=
  if String.prefix "/" b then b
  else if bool_decide (a = "") then b
  else if bool_decide (String.substring (String.length a - 1) 1 a = "/") then a ++ b
  else a ++ "/" ++ b.

(** [l[i]] on a Python list. *)
Definition list_getitem {A : Type} (l : list A) (i : Z) : M A :=
  let j := if i <? 0 then i + Z.of_nat (length l) else i in
  if j <? 0 then raise IndexError
  else match l !! Z.to_nat j with
       | Some a => mret a
       | None => raise IndexError
       end.

(** [str(n)] and [str([n, ...])]. *)
Definition str (n : Z) : string := pretty n.

Definition str_list (l : list Z) : string :=
  "[" ++ String.concat ", " (map str l) ++ "]".

End Library.

(** ** The script *)

Section Script.
Context {R : Rasterizer}.

(** [create_icon(size, output_path)], lines 10-84. *)
Definition create_icon (size : Z) (output_path : string) : M unit :=
  img ← Image_new "RGBA" (size, size) (RGBA 0 0 0 0);
  (* draw = ImageDraw.Draw(img): the calls below act on [img] *)
  let bg_color := RGB 52 115 201 in
  let dark_color := RGB 35 77 137 in
  let light_color := RGB 100 160 230 in
  let white := RGB 255 255 255 in
  let padding := size / 10 in
  let box_size := size - 2 * padding in
  let corner_radius := box_size / 5 in
  let shadow_padding := padding + size / 40 in
  img ← rounded_rectangle img
          (Box shadow_padding shadow_padding
               (shadow_padding + box_size) (shadow_padding + box_size))
          corner_radius (RGBA 30 65 120 100);
  img ← rounded_rectangle img
          (Box padding padding (padding + box_size) (padding + box_size))
          corner_radius bg_color;
  let shackle_width := box_size / 2 in
  let shackle_height := box_size / 2 in
  let shackle_x := padding + box_size / 2 - shackle_width / 2 in
  let shackle_y := padding - box_size / 10 in
  let shackle_thickness := Z.max 2 (size / 25) in
  let arc_bbox :=
    Box shackle_x (shackle_y - shackle_height / 2)
        (shackle_x + shackle_width) (shackle_y + shackle_height / 2) in
  img ← arc img arc_bbox 0 180 white shackle_thickness;
  let center_x := size / 2 in
  let center_y := size / 2 + size / 20 in
  let keyhole_radius := size / 12 in
  img ← ellipse img
          (Box (center_x - keyhole_radius) (center_y - keyhole_radius)
               (center_x + keyhole_radius) (center_y + keyhole_radius))
          white;
  let stem_width := keyhole_radius in
  let stem_height := int_mul_1_5 keyhole_radius in
  img ← rectangle img
          (Box (center_x - stem_width / 2) center_y
               (center_x + stem_width / 2)
               (PyFloat (int_add_float center_y stem_height)))
          white;
  save_png img output_path;;
  print ("Created: " ++ output_path ++ " (" ++ str size ++ "x" ++ str size ++ ")").

(** The body of the loop of [create_ico_file], lines 91-151: the frame it
    appends for one [size]. *)
Definition ico_frame (size : Z) : M Image :=
  img ← Image_new "RGBA" (size, size) (RGBA 0 0 0 0);
  let bg_color := RGB 52 115 201 in
  let dark_color := RGB 35 77 137 in
  let white := RGB 255 255 255 in
  let padding := size / 10 in
  let box_size := size - 2 * padding in
  let corner_radius := box_size / 5 in
  let shadow_padding := padding + size / 40 in
  img ← rounded_rectangle img
          (Box shadow_padding shadow_padding
               (shadow_padding + box_size) (shadow_padding + box_size))
          corner_radius (RGBA 30 65 120 100);
  img ← rounded_rectangle img
          (Box padding padding (padding + box_size) (padding + box_size))
          corner_radius bg_color;
  let shackle_width := box_size / 2 in
  let shackle_height := box_size / 2 in
  let shackle_x := padding + box_size / 2 - shackle_width / 2 in
  let shackle_y := padding - box_size / 10 in
  let shackle_thickness := Z.max 2 (size / 25) in
  let arc_bbox :=
    Box shackle_x (shackle_y - shackle_height / 2)
        (shackle_x + shackle_width) (shackle_y + shackle_height / 2) in
  img ← arc img arc_bbox 0 180 white shackle_thickness;
  let center_x := size / 2 in
  let center_y := size / 2 + size / 20 in
  let keyhole_radius := size / 12 in
  img ← ellipse img
          (Box (center_x - keyhole_radius) (center_y - keyhole_radius)
               (center_x + keyhole_radius) (center_y + keyhole_radius))
          white;
  let stem_width := keyhole_radius in
  let stem_height := int_mul_1_5 keyhole_radius in
  img ← rectangle img
          (Box (center_x - stem_width / 2) center_y
               (center_x + stem_width / 2)
               (PyFloat (int_add_float center_y stem_height)))
          white;
  mret img.

(** The loop of [create_ico_file], lines 89-153: [icons] after the loop. *)
Definition ico_frames (sizes : list Z) : M (list Image) :=
  for_each sizes (λ size icons, img ← ico_frame size; mret (icons ++ [img])%list) [].

(** [create_ico_file(sizes, output_path)], lines 87-157. *)
Definition create_ico_file (sizes : list Z) (output_path : string) : M unit :=
  icons ← ico_frames sizes;
  first ← list_getitem icons 0;
  save_ico first output_path (map (λ i, (im_width i, im_height i)) icons);;
  print ("Created: " ++ output_path ++ " (ICO with sizes: "
           ++ str_list (map im_width icons) ++ ")").

Definition output_dir : string :=
  "/home/eric/coding/gmanager-glm/apps/desktop/src-tauri/icons".

(** [main()], lines 160-179. *)
Definition main : M unit :=
  os_makedirs output_dir;;
  print "Creating GManager icons...";;
  create_icon 32 (os_path_join output_dir "32x32.png");;
  create_icon 128 (os_path_join output_dir "128x128.png");;
  create_icon 256 (os_path_join output_dir "128x128@2x.png");;
  create_ico_file [16; 32; 48; 256] (os_path_join output_dir "icon.ico");;
  create_icon 512 (os_path_join output_dir "icon.icns.png");;
  print "Note: icon.icns created as PNG placeholder. For macOS, use 'iconutil' on macOS.";;
  print (String "010" "All icons created successfully!").

End Script.

(** ** A reference rasterizer *)

(** One executable implementation of the interface: a pixel is covered when
    its centre satisfies the equation of the shape, in exact integer
    arithmetic.  Arcs are resolved to whole quadrants.  Pillow's own scan
    conversion is another implementation. *)
Module Reference.

Definition sq (z : Z) : Z := z * z.

(** The pixel centre lies in the ellipse inscribed in [b]. *)
Definition in_ellipse (b : Rect) (x y : Z) : bool :=
  let a := rx1 b - rx0 b in
  let h := ry1 b - ry0 b in
  sq h * sq (2 * x - rx0 b - rx1 b) + sq a * sq (2 * y - ry0 b - ry1 b)
    <=? sq a * sq h.

Definition ellipse_cover (b : Rect) (x y : Z) : bool :=
  in_rect b x y && in_ellipse b x y.

(** Within distance [r] of the box shrunk by [r] on every side. *)
Definition rounded_cover (b : Rect) (r x y : Z) : bool :=
  in_rect b x y &&
  (let dx := Z.max 0 (Z.max (rx0 b + r - x) (x - (rx1 b - r))) in
   let dy := Z.max 0 (Z.max (ry0 b + r - y) (y - (ry1 b - r))) in
   sq dx + sq dy <=? sq r).

Definition shrink (b : Rect) (wd : Z) : Rect :=
  MkRect (rx0 b + wd) (ry0 b + wd) (rx1 b - wd) (ry1 b - wd).

(** The pixel lies in quadrant [k] around the centre of [b]; angles grow
    clockwise from three o'clock, so quadrant 0 is right and below. *)
Definition in_quadrant (b : Rect) (k x y : Z) : bool :=
  let dx := 2 * x - rx0 b - rx1 b in
  let dy := 2 * y - ry0 b - ry1 b in
  match k mod 4 with
  | 0 => (0 <=? dx) && (0 <=? dy)
  | 1 => (dx <=? 0) && (0 <=? dy)
  | 2 => (dx <=? 0) && (dy <=? 0)
  | _ => (0 <=? dx) && (dy <=? 0)
  end.

(** The sweep from [start] to [stop] degrees enters quadrant [k], counted
    over two turns. *)
Definition swept (start stop k : Z) : bool :=
  let s := start mod 360 in
  let e := if 360 <=? stop - start then s + 360 else s + (stop - start) mod 360 in
  (90 * k <? e) && (s <? 90 * k + 90).

Definition arc_cover (b : Rect) (start stop wd x y : Z) : bool :=
  in_rect b x y && in_ellipse b x y
  && negb (ellipse_cover (shrink b wd) x y)
  && existsb (λ k, swept start stop k && in_quadrant b k x y) [0; 1; 2; 3; 4; 5; 6; 7].

#[local] Instance rasterizer : Rasterizer := {|
  rounded_rectangle_mask := rounded_cover;
  arc_mask := arc_cover;
  ellipse_mask := ellipse_cover
|}.

(** The world before the script runs. *)
Definition empty_world : World := MkWorld ∅ ∅ [] [].

End Reference.

(** ** Observations and derived descriptions *)

Section Derived.
Context {R : Rasterizer}.

(** The PNG image a run left at [path], if it returned and wrote one. *)
Definition produced_image (o : outcome unit) (path : string) : option Image :=
  match o with
  | Returns _ w =>
      match fs_files w !! path with
      | Some (PNG_file img) => Some img
      | _ => None
      end
  | Raises _ _ => None
  end.

(** The files a run left behind, when it returned. *)
Definition files_after (o : outcome unit) : option (gmap string File) :=
  match o with
  | Returns _ w => Some (fs_files w)
  | Raises _ _ => None
  end.

(** The drawing calls a run added to the log of [w]. *)
Definition calls_added {A} (w : World) (o : outcome A) : list DrawCall :=
  let w' := match o with Returns _ w' => w' | Raises _ w' => w' end in
  drop (length (draw_log w)) (draw_log w').

(** The raster [Image.new] returns for a square of side [size]. *)
Definition blank (size : Z) : Image :=
  MkImage "RGBA" size size
    (replicate (Z.to_nat size) (replicate (Z.to_nat size) (0, 0, 0, 0))).

(** The effect of a sequence of accepted calls on a raster. *)
Definition render (calls : list DrawCall) (img : Image) : Image :=
  fold_left (λ i c, paint (call_mask c) (ink_of (call_fill c)) i) calls img.

(** [w] with [calls] appended to its log. *)
Definition logged (w : World) (calls : list DrawCall) : World :=
  MkWorld (fs_dirs w) (fs_files w) (stdout w) (draw_log w ++ calls).

(** The five calls of the lock drawing with every argument written as a
    function of [size]; [ico_frame_run] and [create_icon_run] show that
    both renderers of the script make exactly these calls. *)
Definition lock_calls (size : Z) : list DrawCall :=
  let p := size / 10 in
  let bs := size - 2 * (size / 10) in
  let sx := p + bs / 2 - bs / 2 / 2 in
  let sy := p - bs / 10 in
  let cx := size / 2 in
  let cy := size / 2 + size / 20 in
  let kr := size / 12 in
  [ RoundedRectangle (Box (p + size / 40) (p + size / 40)
                          (p + size / 40 + bs) (p + size / 40 + bs))
      (bs / 5) (RGBA 30 65 120 100);
    RoundedRectangle (Box p p (p + bs) (p + bs)) (bs / 5) (RGB 52 115 201);
    Arc (Box sx (sy - bs / 2 / 2) (sx + bs / 2) (sy + bs / 2 / 2))
      0 180 (RGB 255 255 255) (Z.max 2 (size / 25));
    Ellipse (Box (cx - kr) (cy - kr) (cx + kr) (cy + kr)) (RGB 255 255 255);
    Rectangle (Box (cx - kr / 2) cy (cx + kr / 2)
                   (PyFloat (Halves (2 * cy + 3 * kr))))
      (RGB 255 255 255) ].

Definition lock_image (size : Z) : Image := render (lock_calls size) (blank size).

(** The call draws an arc. *)
Definition is_arc (c : DrawCall) : bool :=
  match c with Arc _ _ _ _ _ => true | _ => false end.

(** A pixel is fully opaque; a pixel is white. *)
Definition opaque (p : pixel) : Prop := alpha p = 255.
Definition white (p : pixel) : Prop := p.1 = (255, 255, 255).

(** The five paths [main] writes. *)
Definition png_outputs : list string :=
  [ output_dir ++ "/32x32.png"; output_dir ++ "/128x128.png";
    output_dir ++ "/128x128@2x.png"; output_dir ++ "/icon.icns.png" ]%string.

Definition ico_output : string := (output_dir ++ "/icon.ico")%string.

End Derived.

(** ** Pillow's ICO writer *)

(** Modelled on Pillow's ICO writer ([IcoImagePlugin._save]), which is not
    part of the repository.  Given the image [save] is called on and the
    [sizes] argument, it walks [sorted(set(sizes))] and skips every size that
    is wider or taller than that image, or than 256; the sizes it keeps are
    the frames of the container.  The script passes no [append_images]. *)

(** Python's order on pairs of ints. *)
Definition pair_ltb (a b : Z * Z) : bool :=
  (a.1 <? b.1) || ((a.1 =? b.1) && (a.2 <? b.2)).

Definition pair_eqb (a b : Z * Z) : bool := (a.1 =? b.1) && (a.2 =? b.2).

(** Insert a pair into an increasing list without repetition. *)
Fixpoint insert_size (a : Z * Z) (l : list (Z * Z)) : list (Z * Z) :=
  match l with
  | [] => [a]
  | b :: rest =>
      if pair_eqb a b then l
      else if pair_ltb a b then a :: l
      else b :: insert_size a rest
  end.

(** [sorted(set(sizes))]. *)
Definition sorted_set (sizes : list (Z * Z)) : list (Z * Z) :=
  foldr insert_size [] sizes.

(** The writer keeps a size that fits the image and 256 by 256. *)
Definition ico_keeps (img : Image) (size : Z * Z) : bool :=
  negb ((im_width img <? size.1) || (im_height img <? size.2)
        || (256 <? size.1) || (256 <? size.2)).

(** The frame sizes of the container written for a save request. *)
Definition ico_container_sizes (f : File) : list (Z * Z) :=
  match f with
  | ICO_file img sizes => List.filter (ico_keeps img) (sorted_set sizes)
  | PNG_file _ => []
  end.

(** * Properties *)

(** ** Integer arithmetic *)

(** Floor and truncating division by constants, reduced to linear facts. *)
Ltac zdiv := Z.to_euclidean_division_equations; lia.

Lemma in_rect_true b x y :
  in_rect b x y = true <-> rx0 b <= x <= rx1 b /\ ry0 b <= y <= ry1 b.
Proof. unfold in_rect. rewrite !andb_true_iff, !Z.leb_le. lia. Qed.

Lemma in_rect_false b x y :
  x < rx0 b \/ rx1 b < x \/ y < ry0 b \/ ry1 b < y -> in_rect b x y = false.
Proof.
  intros H. destruct (in_rect b x y) eqn:E; [|done].
  apply in_rect_true in E. lia.
Qed.

Lemma inverted_false b :
  rx0 b <= rx1 b -> ry0 b <= ry1 b -> inverted b = false.
Proof. intros. unfold inverted. apply orb_false_intro; apply Z.ltb_ge; lia. Qed.

(** ** Rasters *)

Lemma pixel_at_paint m ink img x y :
  pixel_at (paint m ink img) x y
  = (λ p, if m x y then ink else p) <$> pixel_at img x y.
Proof.
  unfold pixel_at. destruct ((x <? 0) || (y <? 0)) eqn:E; [done|].
  apply orb_false_elim in E as [Hx%Z.ltb_ge Hy%Z.ltb_ge]. simpl.
  rewrite list_lookup_imap.
  destruct (im_rows img !! Z.to_nat y) as [row|]; simpl; [|done].
  rewrite list_lookup_imap, !Z2Nat.id by lia. done.
Qed.

Lemma pixel_at_blank size x y :
  0 <= x < size -> 0 <= y < size -> pixel_at (blank size) x y = Some (0, 0, 0, 0).
Proof.
  intros Hx Hy. unfold pixel_at.
  replace ((x <? 0) || (y <? 0)) with false
    by (symmetry; apply orb_false_intro; apply Z.ltb_ge; lia).
  simpl. rewrite lookup_replicate_2 by lia. simpl.
  by rewrite lookup_replicate_2 by lia.
Qed.

Lemma blank_well_shaped size : 0 <= size -> well_shaped (blank size).
Proof.
  intros H. repeat split; simpl; try done.
  - by rewrite length_replicate.
  - apply Forall_replicate. by rewrite length_replicate.
Qed.

Lemma paint_well_shaped m ink img : well_shaped img -> well_shaped (paint m ink img).
Proof.
  intros (Hw & Hh & Hlen & Hrows). repeat split; simpl; try done.
  - by rewrite length_imap.
  - apply Forall_lookup. intros j row Hj.
    rewrite list_lookup_imap in Hj.
    destruct (im_rows img !! j) as [row'|] eqn:E; simplify_eq/=.
    rewrite length_imap. by eapply (Forall_lookup_1 _ _ _ _ Hrows).
Qed.

Section Rendering.
Context {R : Rasterizer}.

Lemma render_snoc calls c img :
  render (calls ++ [c]) img
  = paint (call_mask c) (ink_of (call_fill c)) (render calls img).
Proof. unfold render. by rewrite fold_left_app. Qed.

Lemma render_well_shaped calls img : well_shaped img -> well_shaped (render calls img).
Proof.
  revert img. induction calls as [|c calls IH]; intros img H; [done|].
  apply IH. by apply paint_well_shaped.
Qed.

Lemma render_dims calls img :
  im_mode (render calls img) = im_mode img /\
  im_width (render calls img) = im_width img /\
  im_height (render calls img) = im_height img.
Proof.
  revert img. induction calls as [|c calls IH]; intros img; [done|].
  simpl. by destruct (IH (paint (call_mask c) (ink_of (call_fill c)) img)).
Qed.

(** Calls that do not cover a pixel leave it as it was. *)
Lemma render_untouched calls img x y :
  Forall (λ c, call_mask c x y = false) calls ->
  pixel_at (render calls img) x y = pixel_at img x y.
Proof.
  revert img. induction calls as [|c calls IH]; intros img H; [done|].
  inversion_clear H as [|?? Hc Hrest]. simpl.
  rewrite (IH _ Hrest), pixel_at_paint, Hc.
  by destruct (pixel_at img x y).
Qed.

(** A pixel of the raster is still a pixel after any calls. *)
Lemma render_defined calls img x y :
  is_Some (pixel_at img x y) -> is_Some (pixel_at (render calls img) x y).
Proof.
  revert img. induction calls as [|c calls IH]; intros img H; [done|].
  simpl. apply IH. rewrite pixel_at_paint. by apply fmap_is_Some.
Qed.

(** A shape never paints outside the box of its call. *)
Lemma call_mask_outside {L : RasterizerLaws R} c x y :
  in_rect (px_box (call_box c)) x y = false -> call_mask c x y = false.
Proof.
  intros H. destruct (call_mask c x y) eqn:E; [|done].
  rewrite <- H. symmetry.
  destruct c; simpl in *;
    eauto using rounded_rectangle_inside, arc_inside, ellipse_inside.
Qed.

End Rendering.

(** ** Running the script *)

Section Running.
Context {R : Rasterizer}.

Lemma bind_returns {A B} (m : M A) (f : A -> M B) w a w' :
  m w = Returns a w' -> (m ≫= f) w = f a w'.
Proof. intros H. unfold mbind, M_bind. by rewrite H. Qed.

Lemma bind_raises {A B} (m : M A) (f : A -> M B) w e w' :
  m w = Raises e w' -> (m ≫= f) w = Raises e w'.
Proof. intros H. unfold mbind, M_bind. by rewrite H. Qed.

Lemma logged_nil w : logged w [] = w.
Proof. destruct w. unfold logged. simpl. by rewrite app_nil_r. Qed.

Lemma logged_logged w a b : logged (logged w a) b = logged w (a ++ b).
Proof. unfold logged. simpl. by rewrite app_assoc. Qed.

Lemma Image_new_returns size w :
  0 <= size -> Image_new "RGBA" (size, size) (RGBA 0 0 0 0) w = Returns (blank size) w.
Proof.
  intros H. unfold Image_new. simpl.
  by replace (size <? 0) with false by (symmetry; apply Z.ltb_ge; lia).
Qed.

Lemma Image_new_raises size w :
  size < 0 -> Image_new "RGBA" (size, size) (RGBA 0 0 0 0) w = Raises ValueError w.
Proof.
  intros H. unfold Image_new. simpl.
  by replace (size <? 0) with true by (symmetry; apply Z.ltb_lt; lia).
Qed.

Lemma invoke_returns c img w :
  inverted (px_box (call_box c)) = false ->
  invoke c img w = Returns (paint (call_mask c) (ink_of (call_fill c)) img) (logged w [c]).
Proof. intros H. unfold invoke. by rewrite H. Qed.

(** For a size that is not negative no box of the drawing is inverted. *)
Lemma lock_calls_accepted size :
  0 <= size -> Forall (λ c, inverted (px_box (call_box c)) = false) (lock_calls size).
Proof.
  intros H. unfold lock_calls.
  repeat apply Forall_cons_2; try apply Forall_nil_2;
    apply inverted_false; simpl; zdiv.
Qed.

(** The loop body returns the lock drawing and logs its five calls. *)
Lemma ico_frame_run size w :
  0 <= size -> ico_frame size w = Returns (lock_image size) (logged w (lock_calls size)).
Proof.
  intros H. pose proof (lock_calls_accepted size H) as Hok.
  unfold lock_calls in Hok.
  repeat (apply Forall_cons_1 in Hok as [? Hok]).
  unfold ico_frame.
  erewrite bind_returns by (by apply Image_new_returns).
  unfold rounded_rectangle, arc, ellipse, rectangle.
  repeat (erewrite bind_returns by (by apply invoke_returns)).
  unfold mret, M_ret. by rewrite !logged_logged.
Qed.

Lemma ico_frame_raises size w : size < 0 -> ico_frame size w = Raises ValueError w.
Proof.
  intros H. unfold ico_frame.
  by erewrite bind_raises by (by apply Image_new_raises).
Qed.

(** [create_icon] draws the same picture, saves it and reports it. *)
Lemma create_icon_run size path w :
  0 <= size ->
  create_icon size path w
  = Returns tt
      (MkWorld (fs_dirs w) (<[path := PNG_file (lock_image size)]> (fs_files w))
         (stdout w ++ ["Created: " ++ path ++ " (" ++ str size ++ "x" ++ str size ++ ")"]%string)
         (draw_log w ++ lock_calls size)).
Proof.
  intros H. pose proof (lock_calls_accepted size H) as Hok.
  unfold lock_calls in Hok.
  repeat (apply Forall_cons_1 in Hok as [? Hok]).
  unfold create_icon.
  erewrite bind_returns by (by apply Image_new_returns).
  unfold rounded_rectangle, arc, ellipse, rectangle.
  repeat (erewrite bind_returns by (by apply invoke_returns)).
  rewrite !logged_logged. done.
Qed.

Lemma create_icon_raises size path w :
  size < 0 -> create_icon size path w = Raises ValueError w.
Proof.
  intros H. unfold create_icon.
  by erewrite bind_raises by (by apply Image_new_raises).
Qed.

End Running.

(** ** The script on small inputs, with the reference rasterizer *)

Example path_of_first_output :
  os_path_join output_dir "32x32.png"
  = "/home/eric/coding/gmanager-glm/apps/desktop/src-tauri/icons/32x32.png".
Proof. reflexivity. Qed.

Example stem_bottom_of_32 : c_int (PyFloat (int_add_float 17 (int_mul_1_5 2))) = 20.
Proof. reflexivity. Qed.

Example create_icon_32_calls :
  calls_added Reference.empty_world
    (create_icon (R:=Reference.rasterizer) 32 "a.png" Reference.empty_world)
  = [ RoundedRectangle (Box 3 3 29 29) 5 (RGBA 30 65 120 100);
      RoundedRectangle (Box 3 3 29 29) 5 (RGB 52 115 201);
      Arc (Box 10 (-5) 23 7) 0 180 (RGB 255 255 255) 2;
      Ellipse (Box 14 15 18 19) (RGB 255 255 255);
      Rectangle (Box 15 17 17 (PyFloat (Halves 40))) (RGB 255 255 255) ].
Proof. vm_compute. reflexivity. Qed.

Example create_icon_32_pixels :
  let img := produced_image
    (create_icon (R:=Reference.rasterizer) 32 "a.png" Reference.empty_world) "a.png" in
  (img ≫= λ i, pixel_at i 16 16) = Some (255, 255, 255, 255) /\
  (img ≫= λ i, pixel_at i 16 10) = Some (52, 115, 201, 255) /\
  (img ≫= λ i, pixel_at i 1 1) = Some (0, 0, 0, 0) /\
  (img ≫= λ i, pixel_at i 32 0) = None.
Proof. vm_compute. done. Qed.

Example create_icon_32_stdout :
  match create_icon (R:=Reference.rasterizer) 32 "a.png" Reference.empty_world with
  | Returns _ w => stdout w
  | Raises _ _ => []
  end = ["Created: a.png (32x32)"].
Proof. vm_compute. reflexivity. Qed.

Example create_icon_negative :
  create_icon (R:=Reference.rasterizer) (-1) "a.png" Reference.empty_world
  = Raises ValueError Reference.empty_world.
Proof. reflexivity. Qed.

Example create_ico_file_stdout :
  match create_ico_file (R:=Reference.rasterizer) [16; 32] "a.ico" Reference.empty_world with
  | Returns _ w => stdout w
  | Raises _ _ => []
  end = ["Created: a.ico (ICO with sizes: [16, 32])"].
Proof. vm_compute. reflexivity. Qed.

Example sorted_set_of_sizes :
  sorted_set [(48, 48); (16, 16); (256, 256); (16, 16)] = [(16, 16); (48, 48); (256, 256)].
Proof. reflexivity. Qed.

Example container_of_a_48_image :
  ico_container_sizes
    (ICO_file (blank 48) [(16, 16); (32, 32); (48, 48); (256, 256)])
  = [(16, 16); (32, 32); (48, 48)].
Proof. reflexivity. Qed.

Example container_of_a_512_image :
  ico_container_sizes (ICO_file (MkImage "RGBA" 512 512 []) [(512, 512); (256, 256); (64, 64)])
  = [(64, 64); (256, 256)].
Proof. reflexivity. Qed.

(** ** The reference rasterizer obeys the laws *)

Lemma reference_laws : RasterizerLaws Reference.rasterizer.
Proof.
  split; simpl.
  - intros b r x y H. unfold Reference.rounded_cover in H.
    by apply andb_true_iff in H as [H _].
  - intros b s e wd x y H. unfold Reference.arc_cover in H.
    by do 3 (apply andb_true_iff in H as [H _]).
  - intros b x y H. unfold Reference.ellipse_cover in H.
    by apply andb_true_iff in H as [H _].
  - intros b x y Hx Hy Hmid Hrange. unfold Reference.ellipse_cover.
    apply andb_true_iff; split.
    + apply in_rect_true. lia.
    + unfold Reference.in_ellipse, Reference.sq. apply Z.leb_le.
      replace (2 * x - rx0 b - rx1 b) with 0 by lia.
      rewrite Z.mul_0_r, Z.add_0_l.
      apply Z.mul_le_mono_nonneg_l; [nia|].
      assert (0 <= (ry1 b - ry0 b - (2 * y - ry0 b - ry1 b))
                   * (ry1 b - ry0 b + (2 * y - ry0 b - ry1 b))) by (apply Z.mul_nonneg_nonneg; lia).
      lia.
Qed.

(** ** The picture *)

Section Picture.
Context {R : Rasterizer}.

Lemma produced_image_create_icon size path w :
  0 <= size -> produced_image (create_icon size path w) path = Some (lock_image size).
Proof.
  intros H. rewrite create_icon_run by done.
  unfold produced_image. cbn [fs_files]. by rewrite lookup_insert_eq.
Qed.

Lemma calls_added_create_icon size path w :
  0 <= size -> calls_added w (create_icon size path w) = lock_calls size.
Proof.
  intros H. rewrite create_icon_run by done.
  unfold calls_added. cbn [draw_log]. by rewrite drop_app_length.
Qed.

Lemma calls_added_ico_frame size w :
  0 <= size -> calls_added w (ico_frame size w) = lock_calls size.
Proof.
  intros H. rewrite ico_frame_run by done.
  unfold calls_added, logged. cbn [draw_log]. by rewrite drop_app_length.
Qed.

Lemma lock_image_dims size :
  im_mode (lock_image size) = "RGBA" /\
  im_width (lock_image size) = size /\ im_height (lock_image size) = size.
Proof. apply (render_dims (lock_calls size) (blank size)). Qed.

Lemma lock_image_well_shaped size : 0 <= size -> well_shaped (lock_image size).
Proof. intros H. by apply render_well_shaped, blank_well_shaped. Qed.

(** Outside every box of the drawing the raster keeps its initial,
    transparent pixel. *)
Lemma lock_image_outside {L : RasterizerLaws R} size x y :
  0 <= x < size -> 0 <= y < size ->
  Forall (λ c, in_rect (px_box (call_box c)) x y = false) (lock_calls size) ->
  pixel_at (lock_image size) x y = Some (0, 0, 0, 0).
Proof.
  intros Hx Hy Hout. unfold lock_image.
  rewrite render_untouched; [by apply pixel_at_blank|].
  eapply Forall_impl; [exact Hout|]. intros c Hc. by apply call_mask_outside.
Qed.

(** The canvas centre is painted white by the keyhole: by its stem when
    [size < 20], by its circle otherwise. *)
Lemma lock_image_center {L : RasterizerLaws R} size :
  1 <= size -> pixel_at (lock_image size) (size / 2) (size / 2) = Some white_ink.
Proof.
  intros H. unfold lock_image, lock_calls.
  set (cx := size / 2). set (cy := size / 2 + size / 20). set (kr := size / 12).
  match goal with
  | |- pixel_at (render [?c1; ?c2; ?c3; ?c4; ?c5] _) _ _ = _ =>
      change [c1; c2; c3; c4; c5] with ([c1; c2; c3; c4] ++ [c5])%list;
      set (stem := c5);
      change [c1; c2; c3; c4] with ([c1; c2; c3] ++ [c4])%list;
      set (circle := c4); set (under := [c1; c2; c3])
  end.
  rewrite !render_snoc, !pixel_at_paint.
  destruct (render_defined under (blank size) cx cx) as [p Hp].
  { rewrite pixel_at_blank; [done| |]; subst cx; zdiv. }
  rewrite Hp. cbn [fmap option_fmap option_map].
  change (ink_of (call_fill stem)) with white_ink.
  change (ink_of (call_fill circle)) with white_ink.
  destruct (call_mask stem cx cx) eqn:Hstem; [done|].
  assert (call_mask circle cx cx = true) as ->; [|done].
  assert (20 <= size) as Hbig.
  { destruct (Z_lt_le_dec size 20) as [Hsmall|]; [|done].
    exfalso. cut (call_mask stem cx cx = true); [congruence|].
    apply in_rect_true. subst stem cx cy kr. simpl. zdiv. }
  apply ellipse_middle_column; subst cx cy kr; simpl; zdiv.
Qed.

End Picture.

(** ** Claims about the rendered image *)

Section ImageClaims.
Context {R : Rasterizer} {L : RasterizerLaws R}.

(** C1, as amended: for every size of at least 1, hence for each rendered
    size 16, 32, 48, 128, 256 and 512, [create_icon] writes an image whose
    pixel at the canvas centre [(size/2, size/2)] is fully opaque (alpha 255)
    and white: the keyhole covers the centre. *)
Theorem C1_center_pixel_opaque_and_white (size : Z) (path : string) (w : World) :
  1 <= size ->
  exists img p,
    produced_image (create_icon size path w) path = Some img /\
    pixel_at img (size / 2) (size / 2) = Some p /\
    p = (255, 255, 255, 255) /\ opaque p /\ white p.
Proof.
  intros H. exists (lock_image size), white_ink. split; [|split].
  - apply produced_image_create_icon. lia.
  - by apply lock_image_center.
  - done.
Qed.

(** C2: for every size [s] among 16, 32, 48, 128, 256 and 512,
    [create_icon s] writes an image in mode RGBA of width [s] and height
    [s], whose buffer holds [s] rows of [s] pixels. *)
Theorem C2_rendered_sizes_square_RGBA (s : Z) (path : string) (w : World) :
  In s [16; 32; 48; 128; 256; 512] ->
  exists img,
    produced_image (create_icon s path w) path = Some img /\
    im_mode img = "RGBA" /\ im_width img = s /\ im_height img = s /\
    length (im_rows img) = Z.to_nat s /\
    Forall (λ row, length row = Z.to_nat s) (im_rows img).
Proof.
  intros H. assert (0 <= s) as Hs by (simpl in H; lia).
  exists (lock_image s).
  destruct (lock_image_dims s) as (Hm & Hw & Hh).
  destruct (lock_image_well_shaped s Hs) as (_ & _ & Hlen & Hrows).
  rewrite Hw in Hrows. rewrite Hh in Hlen.
  split; [by apply produced_image_create_icon|done].
Qed.

(** C3: for every size [s] of at least 20, the four corner pixels
    [(0,0)], [(s-1,0)], [(0,s-1)] and [(s-1,s-1)] of the image written by
    [create_icon s] have alpha 0. *)
Theorem C3_corners_transparent (s : Z) (path : string) (w : World) :
  20 <= s ->
  exists img,
    produced_image (create_icon s path w) path = Some img /\
    alpha <$> pixel_at img 0 0 = Some 0 /\
    alpha <$> pixel_at img (s - 1) 0 = Some 0 /\
    alpha <$> pixel_at img 0 (s - 1) = Some 0 /\
    alpha <$> pixel_at img (s - 1) (s - 1) = Some 0.
Proof.
  intros H. exists (lock_image s).
  split; [apply produced_image_create_icon; lia|].
  repeat split;
    (rewrite lock_image_outside; [done|lia|lia|]);
    unfold lock_calls;
    repeat apply Forall_cons_2; try apply Forall_nil_2;
    apply in_rect_false; simpl; zdiv.
Qed.

End ImageClaims.

(** The statement of C1 at size 32, for the reference rasterizer. *)
Lemma C1_witness :
  1 <= 32 /\
  exists img p,
    produced_image
      (create_icon (R:=Reference.rasterizer) 32 "32x32.png" Reference.empty_world)
      "32x32.png" = Some img /\
    pixel_at img (32 / 2) (32 / 2) = Some p /\
    p = (255, 255, 255, 255) /\ opaque p /\ white p.
Proof.
  split; [lia|].
  apply (C1_center_pixel_opaque_and_white (L:=reference_laws)). lia.
Defined.

(** C1 as the specification states it fails at size 32: the centre pixel
    [(16, 16)] is white. *)
Lemma C1_counterexample :
  ~ exists img p,
      produced_image
        (create_icon (R:=Reference.rasterizer) 32 "32x32.png" Reference.empty_world)
        "32x32.png" = Some img /\
      pixel_at img 16 16 = Some p /\ opaque p /\ ~ white p.
Proof.
  intros (img & p & Himg & Hp & _ & Hnw).
  vm_compute in Himg. injection Himg as <-.
  vm_compute in Hp. injection Hp as <-.
  by apply Hnw.
Qed.

(** The statement of C2 at size 32. *)
Lemma C2_witness :
  In 32 [16; 32; 48; 128; 256; 512] /\
  exists img,
    produced_image
      (create_icon (R:=Reference.rasterizer) 32 "32x32.png" Reference.empty_world)
      "32x32.png" = Some img /\
    im_mode img = "RGBA" /\ im_width img = 32 /\ im_height img = 32 /\
    length (im_rows img) = Z.to_nat 32 /\
    Forall (λ row, length row = Z.to_nat 32) (im_rows img).
Proof.
  split; [simpl; tauto|].
  apply (C2_rendered_sizes_square_RGBA (R:=Reference.rasterizer)). simpl; tauto.
Defined.

(** The statement of C3 at size 32, for the reference rasterizer. *)
Lemma C3_witness :
  20 <= 32 /\
  exists img,
    produced_image
      (create_icon (R:=Reference.rasterizer) 32 "32x32.png" Reference.empty_world)
      "32x32.png" = Some img /\
    alpha <$> pixel_at img 0 0 = Some 0 /\
    alpha <$> pixel_at img (32 - 1) 0 = Some 0 /\
    alpha <$> pixel_at img 0 (32 - 1) = Some 0 /\
    alpha <$> pixel_at img (32 - 1) (32 - 1) = Some 0.
Proof.
  split; [lia|].
  apply (C3_corners_transparent (L:=reference_laws)). lia.
Defined.

(** ** The ICO packer *)

Section Packer.
Context {R : Rasterizer}.

(** The loop appends one lock drawing per size, in the order of the list. *)
Lemma for_each_frames sizes acc w :
  Forall (λ s, 0 <= s) sizes ->
  for_each sizes (λ size icons, img ← ico_frame size; mret (icons ++ [img])%list) acc w
  = Returns (acc ++ map lock_image sizes)%list (logged w (flat_map lock_calls sizes)).
Proof.
  intros H. revert acc w.
  induction H as [|s rest Hs Hrest IH]; intros acc w.
  - simpl. by rewrite app_nil_r, logged_nil.
  - cbn [for_each].
    erewrite bind_returns; last first.
    { erewrite bind_returns by (by apply ico_frame_run). reflexivity. }
    rewrite IH, logged_logged, <- app_assoc. done.
Qed.

Lemma ico_frames_run sizes w :
  Forall (λ s, 0 <= s) sizes ->
  ico_frames sizes w
  = Returns (map lock_image sizes) (logged w (flat_map lock_calls sizes)).
Proof. intros H. unfold ico_frames. by rewrite for_each_frames. Qed.

Lemma frame_dimensions sizes :
  map (λ i, (im_width i, im_height i)) (map lock_image sizes) = map (λ s, (s, s)) sizes.
Proof.
  rewrite map_map. apply map_ext. intros s.
  by destruct (lock_image_dims s) as (_ & -> & ->).
Qed.

Lemma frame_widths sizes : map im_width (map lock_image sizes) = sizes.
Proof.
  rewrite map_map. rewrite <- (map_id sizes) at 2. apply map_ext. intros s.
  by destruct (lock_image_dims s) as (_ & -> & _).
Qed.

(** With a first size and no negative size, the packer saves the first frame
    together with one [(s, s)] per input size, in input order. *)
Lemma create_ico_file_run s rest path w :
  Forall (λ s, 0 <= s) (s :: rest) ->
  create_ico_file (s :: rest) path w
  = Returns tt
      (MkWorld (fs_dirs w)
         (<[path := ICO_file (lock_image s) (map (λ s, (s, s)) (s :: rest))]> (fs_files w))
         (stdout w ++ ["Created: " ++ path ++ " (ICO with sizes: "
                         ++ str_list (s :: rest) ++ ")"]%string)
         (draw_log w ++ flat_map lock_calls (s :: rest))).
Proof.
  intros H. unfold create_ico_file.
  erewrite bind_returns by (by apply ico_frames_run).
  erewrite bind_returns by reflexivity.
  rewrite frame_dimensions, frame_widths. done.
Qed.

Lemma create_ico_file_empty path w : create_ico_file [] path w = Raises IndexError w.
Proof. reflexivity. Qed.

End Packer.

(** ** Claims about the ICO packer *)

Section PackerClaims.
Context {R : Rasterizer}.

(** A 16 by 16 image fits none of the larger sizes asked for. *)
Lemma ico_container_16 (img : Image) :
  im_width img = 16 -> im_height img = 16 ->
  ico_container_sizes (ICO_file img [(16, 16); (32, 32); (48, 48); (256, 256)])
  = [(16, 16)].
Proof. destruct img as [m wd ht rows]. simpl. by intros -> ->. Qed.

(** Each frame of the loop is the image [create_icon] writes for its size. *)
Lemma frames_are_icons sizes path w :
  Forall (λ s, 0 < s) sizes ->
  Forall2 (λ s frame, produced_image (create_icon s path w) path = Some frame)
    sizes (map lock_image sizes).
Proof.
  intros H. induction H as [|s sizes Hs Hrest IH]; [by constructor|].
  cbn [map]. constructor; [|exact IH].
  apply produced_image_create_icon. lia.
Qed.

(** The loop logs, size after size, the calls [create_icon] makes. *)
Lemma frames_calls sizes path w :
  Forall (λ s, 0 <= s) sizes ->
  flat_map lock_calls sizes
  = flat_map (λ s, calls_added w (create_icon s path w)) sizes.
Proof.
  intros H. induction H as [|s sizes Hs Hrest IH]; [done|].
  cbn [flat_map]. by rewrite calls_added_create_icon, IH by done.
Qed.

(** C4 (code bug): given the sizes [16, 32, 48, 256], [create_ico_file]
    returns, and what it hands to the ICO writer is the first frame, 16 by 16
    pixels, with the four sizes as [sizes] argument.  The writer keeps no
    size larger than the image it is given, so the container records the
    single frame size [(16, 16)], not the four sizes of the input. *)
Theorem C4_ico_container_holds_one_frame (path : string) (w : World) :
  exists first w',
    create_ico_file [16; 32; 48; 256] path w = Returns tt w' /\
    fs_files w' !! path
    = Some (ICO_file first [(16, 16); (32, 32); (48, 48); (256, 256)]) /\
    im_width first = 16 /\ im_height first = 16 /\
    (ico_container_sizes <$> fs_files w' !! path) = Some [(16, 16)] /\
    (ico_container_sizes <$> fs_files w' !! path)
    <> Some [(16, 16); (32, 32); (48, 48); (256, 256)].
Proof.
  destruct (lock_image_dims 16) as (_ & Hw & Hh).
  exists (lock_image 16). eexists. split.
  { apply create_ico_file_run. repeat constructor; lia. }
  cbn [fs_files map]. rewrite lookup_insert_eq.
  change (ico_container_sizes <$> Some ?f) with (Some (ico_container_sizes f)).
  rewrite (ico_container_16 _ Hw Hh).
  repeat split; try done.
Qed.

(** C9: for every list of positive sizes, the loop of [create_ico_file]
    returns one frame per size and each frame is the image [create_icon]
    writes for that size; the loop makes, size after size, the drawing calls
    [create_icon] makes; the image [create_ico_file] saves in the ICO file
    is the image [create_icon] writes for the first size.  For every size
    whatsoever the loop body and [create_icon] make the same drawing
    calls. *)
Theorem C9_ico_frames_equal_create_icon (sizes : list Z) (path : string) (w1 w2 : World) :
  Forall (λ s, 0 < s) sizes ->
  (exists icons w1',
     ico_frames sizes w1 = Returns icons w1' /\
     Forall2 (λ s frame, produced_image (create_icon s path w2) path = Some frame)
       sizes icons) /\
  calls_added w1 (ico_frames sizes w1)
  = flat_map (λ s, calls_added w2 (create_icon s path w2)) sizes /\
  (forall s rest, sizes = s :: rest ->
     exists first recorded w',
       create_ico_file sizes path w1 = Returns tt w' /\
       fs_files w' !! path = Some (ICO_file first recorded) /\
       produced_image (create_icon s path w2) path = Some first) /\
  (forall s, calls_added w1 (ico_frame s w1) = calls_added w2 (create_icon s path w2)).
Proof.
  intros Hpos.
  assert (Forall (λ s, 0 <= s) sizes) as Hnn.
  { eapply Forall_impl; [exact Hpos|]. intros; simpl in *; lia. }
  split; [|split; [|split]].
  - eexists _, _. split; [by apply ico_frames_run|]. by apply frames_are_icons.
  - rewrite ico_frames_run by done. unfold calls_added at 1, logged.
    cbn [draw_log]. rewrite drop_app_length. by apply frames_calls.
  - intros s rest ->. eexists (lock_image s), _, _. split; [|split].
    + by apply create_ico_file_run.
    + cbn [fs_files]. apply lookup_insert_eq.
    + apply produced_image_create_icon. inversion Hnn; subst; done.
  - intros s. destruct (Z_lt_le_dec s 0) as [Hneg|Hs].
    + rewrite ico_frame_raises, create_icon_raises by done.
      unfold calls_added. by rewrite !drop_all.
    + by rewrite calls_added_ico_frame, calls_added_create_icon.
Qed.

(** C10: on the empty list [create_ico_file] raises [IndexError] at
    [icons[0]] and leaves the world as it was, so nothing is written; on a
    non-empty list of positive sizes the loop returns the frames, [icons[0]]
    is in bounds, the call returns and the ICO file it saved holds that
    first frame. *)
Theorem C10_ico_needs_a_size (sizes : list Z) (path : string) (w : World) :
  create_ico_file [] path w = Raises IndexError w /\
  (sizes <> [] -> Forall (λ s, 0 < s) sizes ->
   exists icons first w' recorded,
     ico_frames sizes w = Returns icons (logged w (flat_map lock_calls sizes)) /\
     icons !! 0%nat = Some first /\
     create_ico_file sizes path w = Returns tt w' /\
     fs_files w' !! path = Some (ICO_file first recorded)).
Proof.
  split; [apply create_ico_file_empty|].
  intros Hne Hpos. destruct sizes as [|s rest]; [done|].
  assert (Forall (λ s, 0 <= s) (s :: rest)) as Hnn.
  { eapply Forall_impl; [exact Hpos|]. intros; simpl in *; lia. }
  eexists _, (lock_image s), _, _. split; [|split; [|split]].
  - by apply ico_frames_run.
  - done.
  - by apply create_ico_file_run.
  - cbn [fs_files]. by rewrite lookup_insert_eq.
Qed.

End PackerClaims.

(** The statement of C9 for the sizes [16, 32]. *)
Lemma C9_witness :
  Forall (λ s, 0 < s) [16; 32] /\
  (exists icons w1',
     ico_frames (R:=Reference.rasterizer) [16; 32] Reference.empty_world
     = Returns icons w1' /\
     Forall2 (λ s frame,
        produced_image
          (create_icon (R:=Reference.rasterizer) s "a.png" Reference.empty_world) "a.png"
        = Some frame) [16; 32] icons) /\
  calls_added Reference.empty_world
    (ico_frames (R:=Reference.rasterizer) [16; 32] Reference.empty_world)
  = flat_map (λ s, calls_added Reference.empty_world
                     (create_icon (R:=Reference.rasterizer) s "a.png" Reference.empty_world))
      [16; 32] /\
  (forall s rest, [16; 32] = s :: rest ->
     exists first recorded w',
       create_ico_file (R:=Reference.rasterizer) [16; 32] "a.png" Reference.empty_world
       = Returns tt w' /\
       fs_files w' !! "a.png" = Some (ICO_file first recorded) /\
       produced_image
         (create_icon (R:=Reference.rasterizer) s "a.png" Reference.empty_world) "a.png"
       = Some first) /\
  (forall s,
     calls_added Reference.empty_world
       (ico_frame (R:=Reference.rasterizer) s Reference.empty_world)
     = calls_added Reference.empty_world
         (create_icon (R:=Reference.rasterizer) s "a.png" Reference.empty_world)).
Proof.
  assert (Forall (λ s, 0 < s) [16; 32]) as H by (repeat constructor; lia).
  split; [exact H|].
  apply (C9_ico_frames_equal_create_icon (R:=Reference.rasterizer)). exact H.
Defined.

(** The statement of C10 for the sizes [16, 32]. *)
Lemma C10_witness :
  create_ico_file (R:=Reference.rasterizer) [] "icon.ico" Reference.empty_world
  = Raises IndexError Reference.empty_world /\
  exists icons first w' recorded,
    ico_frames (R:=Reference.rasterizer) [16; 32] Reference.empty_world
    = Returns icons (logged Reference.empty_world (flat_map lock_calls [16; 32])) /\
    icons !! 0%nat = Some first /\
    create_ico_file (R:=Reference.rasterizer) [16; 32] "icon.ico" Reference.empty_world
    = Returns tt w' /\
    fs_files w' !! "icon.ico" = Some (ICO_file first recorded).
Proof.
  destruct (C10_ico_needs_a_size (R:=Reference.rasterizer)
              [16; 32] "icon.ico" Reference.empty_world) as [Hempty Hrest].
  split; [exact Hempty|].
  apply Hrest; [discriminate|]. repeat constructor; lia.
Defined.

(** ** Claims about the geometry *)

Section GeometryClaims.
Context {R : Rasterizer}.

(** C7: for every size, the only arc [create_icon] draws is the shackle: its
    fill is white, it runs from 0 to 180 degrees, and its stroke width is
    [max(2, size/25)], hence at least 2.  (A negative size is refused by
    [Image.new] before any drawing.) *)
Theorem C7_shackle_arc (size : Z) (path : string) (w : World) :
  (if size <? 0
   then calls_added w (create_icon size path w) = []
   else exists xy,
     List.filter is_arc (calls_added w (create_icon size path w))
     = [Arc xy 0 180 (RGB 255 255 255) (Z.max 2 (size / 25))]) /\
  ink_of (RGB 255 255 255) = white_ink /\
  2 <= Z.max 2 (size / 25).
Proof.
  split; [|split; [done|lia]].
  destruct (size <? 0) eqn:E.
  - apply Z.ltb_lt in E. rewrite create_icon_raises by done.
    unfold calls_added. by rewrite drop_all.
  - apply Z.ltb_ge in E. rewrite calls_added_create_icon by done.
    unfold lock_calls. simpl. by eexists.
Qed.

(** C8: for every positive size the drawing calls of [create_icon] use, in
    floor division, padding [size/10], box size [size - 2*padding], corner
    radius [box_size/5], shackle width and height [box_size/2] and keyhole
    radius [size/12]; the shadow box is the badge box moved by [size/40]
    along both axes. *)
Theorem C8_geometry (size : Z) (path : string) (w : World) :
  0 < size ->
  let padding := size / 10 in
  let box_size := size - 2 * padding in
  let corner_radius := box_size / 5 in
  let shackle_width := box_size / 2 in
  let shackle_height := box_size / 2 in
  let keyhole_radius := size / 12 in
  let offset := size / 40 in
  exists (shackle_x shackle_y center_x center_y : Z) (stem_bottom : num),
    calls_added w (create_icon size path w)
    = [ RoundedRectangle
          (Box (padding + offset) (padding + offset)
               (padding + box_size + offset) (padding + box_size + offset))
          corner_radius (RGBA 30 65 120 100);
        RoundedRectangle
          (Box padding padding (padding + box_size) (padding + box_size))
          corner_radius (RGB 52 115 201);
        Arc (Box shackle_x (shackle_y - shackle_height / 2)
                 (shackle_x + shackle_width) (shackle_y + shackle_height / 2))
          0 180 (RGB 255 255 255) (Z.max 2 (size / 25));
        Ellipse (Box (center_x - keyhole_radius) (center_y - keyhole_radius)
                     (center_x + keyhole_radius) (center_y + keyhole_radius))
          (RGB 255 255 255);
        Rectangle (Box (center_x - keyhole_radius / 2) center_y
                       (center_x + keyhole_radius / 2) stem_bottom)
          (RGB 255 255 255) ].
Proof.
  intros H padding box_size corner_radius shackle_width shackle_height
    keyhole_radius offset.
  rewrite calls_added_create_icon by lia.
  replace (padding + box_size + offset) with (padding + offset + box_size) by lia.
  unfold lock_calls. by eexists _, _, _, _, _.
Qed.

End GeometryClaims.

(** The statement of C8 at size 32, with the numbers worked out. *)
Lemma C8_witness :
  0 < 32 /\
  exists (shackle_x shackle_y center_x center_y : Z) (stem_bottom : num),
    calls_added Reference.empty_world
      (create_icon (R:=Reference.rasterizer) 32 "32x32.png" Reference.empty_world)
    = [ RoundedRectangle (Box 3 3 29 29) 5 (RGBA 30 65 120 100);
        RoundedRectangle (Box 3 3 29 29) 5 (RGB 52 115 201);
        Arc (Box shackle_x (shackle_y - 6) (shackle_x + 13) (shackle_y + 6))
          0 180 (RGB 255 255 255) 2;
        Ellipse (Box (center_x - 2) (center_y - 2) (center_x + 2) (center_y + 2))
          (RGB 255 255 255);
        Rectangle (Box (center_x - 1) center_y (center_x + 1) stem_bottom)
          (RGB 255 255 255) ].
Proof.
  split; [lia|].
  apply (C8_geometry (R:=Reference.rasterizer) 32 "32x32.png" Reference.empty_world).
  lia.
Defined.

(** ** The driver *)

Section Driver.
Context {R : Rasterizer}.

Lemma os_path_join_output_dir name :
  String.prefix "/" name = false ->
  os_path_join output_dir name = (output_dir ++ "/" ++ name)%string.
Proof. intros H. unfold os_path_join. by rewrite H. Qed.

(** The world [main] leaves: the output directory, five files, and the
    drawing calls of eight renders in program order. *)
Lemma main_run w :
  exists out,
    main w
    = Returns tt
        (MkWorld ({[output_dir]} ∪ fs_dirs w)
           (<[(output_dir ++ "/icon.icns.png")%string := PNG_file (lock_image 512)]>
            (<[(output_dir ++ "/icon.ico")%string :=
                 ICO_file (lock_image 16) [(16, 16); (32, 32); (48, 48); (256, 256)]]>
             (<[(output_dir ++ "/128x128@2x.png")%string := PNG_file (lock_image 256)]>
              (<[(output_dir ++ "/128x128.png")%string := PNG_file (lock_image 128)]>
               (<[(output_dir ++ "/32x32.png")%string := PNG_file (lock_image 32)]>
                (fs_files w))))))
           out
           (draw_log w ++ flat_map lock_calls [32; 128; 256; 16; 32; 48; 256; 512])).
Proof.
  unfold main. rewrite !os_path_join_output_dir by done.
  erewrite bind_returns by reflexivity.
  erewrite bind_returns by reflexivity.
  do 3 (erewrite bind_returns by (apply create_icon_run; lia)).
  erewrite bind_returns by (apply create_ico_file_run; repeat constructor; lia).
  erewrite bind_returns by (apply create_icon_run; lia).
  erewrite bind_returns by reflexivity.
  unfold print. cbn [fs_dirs fs_files stdout draw_log flat_map map].
  eexists. f_equal. f_equal. rewrite <- !app_assoc, !app_nil_r. done.
Qed.

End Driver.

(** Two different output paths, decided by evaluation. *)
Ltac paths_differ :=
  match goal with
  | |- ?a <> ?b => apply (bool_decide_eq_false_1 (a = b)); vm_compute; reflexivity
  end.

Section DriverClaims.
Context {R : Rasterizer}.

Lemma dom_insert_five {A} (m : gmap string A) k1 k2 k3 k4 k5 v1 v2 v3 v4 v5 :
  dom (<[k5:=v5]> (<[k4:=v4]> (<[k3:=v3]> (<[k2:=v2]> (<[k1:=v1]> m)))))
  = {[k1; k2; k3; k4; k5]} ∪ dom m.
Proof.
  rewrite !dom_insert_L. apply set_eq. intros k.
  rewrite !elem_of_union, !elem_of_singleton. tauto.
Qed.

(** What [main] leaves at each path. *)
Lemma main_outputs w :
  exists w',
    main w = Returns tt w' /\
    fs_dirs w' = {[output_dir]} ∪ fs_dirs w /\
    calls_added w (main w) = flat_map lock_calls [32; 128; 256; 16; 32; 48; 256; 512] /\
    fs_files w' !! (output_dir ++ "/32x32.png")%string = Some (PNG_file (lock_image 32)) /\
    fs_files w' !! (output_dir ++ "/128x128.png")%string = Some (PNG_file (lock_image 128)) /\
    fs_files w' !! (output_dir ++ "/128x128@2x.png")%string = Some (PNG_file (lock_image 256)) /\
    fs_files w' !! (output_dir ++ "/icon.ico")%string
    = Some (ICO_file (lock_image 16) [(16, 16); (32, 32); (48, 48); (256, 256)]) /\
    fs_files w' !! (output_dir ++ "/icon.icns.png")%string = Some (PNG_file (lock_image 512)) /\
    forall p, p ∉ ico_output :: png_outputs -> fs_files w' !! p = fs_files w !! p.
Proof.
  destruct (main_run w) as [out Hrun]. eexists. split; [exact Hrun|].
  rewrite Hrun. unfold calls_added. cbn [fs_dirs fs_files draw_log].
  split; [done|]. split; [by rewrite drop_app_length|].
  repeat split.
  - rewrite !lookup_insert_ne by paths_differ. apply lookup_insert_eq.
  - rewrite !lookup_insert_ne by paths_differ. apply lookup_insert_eq.
  - rewrite !lookup_insert_ne by paths_differ. apply lookup_insert_eq.
  - rewrite !lookup_insert_ne by paths_differ. apply lookup_insert_eq.
  - apply lookup_insert_eq.
  - intros p Hp. unfold ico_output, png_outputs in Hp.
    rewrite !not_elem_of_cons in Hp. destruct Hp as (? & ? & ? & ? & ? & _).
    by rewrite !lookup_insert_ne by done.
Qed.

(** C5: two runs of [main], the second on the world the first left, both
    return, and for every encoder the bytes of each PNG output are the same
    after both; and [create_icon] writes the same raster for the same size
    whatever the path and the world it starts from. *)
Theorem C5_driver_is_deterministic (encode : File -> list Byte.byte) (w : World) :
  (exists w1 w2,
     main w = Returns tt w1 /\ main w1 = Returns tt w2 /\
     Forall (λ p, is_Some (fs_files w1 !! p) /\
                  encode <$> fs_files w1 !! p = encode <$> fs_files w2 !! p)
       png_outputs) /\
  (forall size p1 p2 wa wb,
     produced_image (create_icon size p1 wa) p1
     = produced_image (create_icon size p2 wb) p2).
Proof.
  split.
  - destruct (main_outputs w) as (w1 & Hrun1 & _ & _ & Ha1 & Hb1 & Hc1 & _ & Hd1 & _).
    destruct (main_outputs w1) as (w2 & Hrun2 & _ & _ & Ha2 & Hb2 & Hc2 & _ & Hd2 & _).
    exists w1, w2. split; [done|]. split; [done|]. unfold png_outputs.
    repeat apply Forall_cons_2; try apply Forall_nil_2.
    + by rewrite Ha1, Ha2.
    + by rewrite Hb1, Hb2.
    + by rewrite Hc1, Hc2.
    + by rewrite Hd1, Hd2.
  - intros size p1 p2 wa wb. destruct (Z_lt_le_dec size 0) as [Hneg|Hpos].
    + by rewrite !create_icon_raises by done.
    + by rewrite !produced_image_create_icon by done.
Qed.

(** C6: from any world [main] returns; afterwards the fixed output
    directory exists, and exactly five paths in it were written:
    [32x32.png], [128x128.png] and [128x128@2x.png] hold the renders at 32,
    128 and 256, [icon.ico] holds the ICO built from the sizes 16, 32, 48
    and 256, and [icon.icns.png] holds the render at 512; every other path
    is as before.  The renders happen in that order. *)
Theorem C6_driver_outputs (w : World) :
  exists w',
    main w = Returns tt w' /\
    output_dir = "/home/eric/coding/gmanager-glm/apps/desktop/src-tauri/icons" /\
    output_dir ∈ fs_dirs w' /\
    fs_dirs w' = {[output_dir]} ∪ fs_dirs w /\
    dom (fs_files w')
    = {[ (output_dir ++ "/32x32.png")%string; (output_dir ++ "/128x128.png")%string;
         (output_dir ++ "/128x128@2x.png")%string; (output_dir ++ "/icon.ico")%string;
         (output_dir ++ "/icon.icns.png")%string ]} ∪ dom (fs_files w) /\
    fs_files w' !! (output_dir ++ "/32x32.png")%string = Some (PNG_file (lock_image 32)) /\
    fs_files w' !! (output_dir ++ "/128x128.png")%string = Some (PNG_file (lock_image 128)) /\
    fs_files w' !! (output_dir ++ "/128x128@2x.png")%string = Some (PNG_file (lock_image 256)) /\
    fs_files w' !! (output_dir ++ "/icon.ico")%string
    = Some (ICO_file (lock_image 16) [(16, 16); (32, 32); (48, 48); (256, 256)]) /\
    fs_files w' !! (output_dir ++ "/icon.icns.png")%string = Some (PNG_file (lock_image 512)) /\
    (forall p, p ∉ ico_output :: png_outputs -> fs_files w' !! p = fs_files w !! p) /\
    calls_added w (main w) = flat_map lock_calls [32; 128; 256; 16; 32; 48; 256; 512].
Proof.
  destruct (main_outputs w) as (w' & Hrun & Hdirs & Hcalls & Ha & Hb & Hc & Hi & Hd & Hrest).
  exists w'. repeat (split; [done|]).
  split; [rewrite Hdirs; by apply elem_of_union_l, elem_of_singleton|].
  split; [done|]. split; [|done].
  destruct (main_run w) as [out Hrun']. rewrite Hrun' in Hrun.
  injection Hrun as <-. cbn [fs_files]. apply dom_insert_five.
Qed.

End DriverClaims.

(** * Further properties of the script *)

(** ** What [create_icon] does to the world *)

Section IconEffects.
Context {R : Rasterizer}.

(** X1: a negative size makes [create_icon] raise [ValueError] at
    [Image.new]; the world is left as it was: no file, no output line, no
    drawing call. *)
Theorem X1_create_icon_negative_size (size : Z) (path : string) (w : World) :
  size < 0 -> create_icon size path w = Raises ValueError w.
Proof. apply create_icon_raises. Qed.

(** X2: for every positive size [create_icon] returns: none of its five
    drawing calls is refused.  It writes its output path and no other,
    creates no directory, and makes exactly one [print] call, with
    [Created: <path> (<size>x<size>)]. *)
Theorem X2_create_icon_returns_and_frames (size : Z) (path : string) (w : World) :
  0 < size ->
  exists img w',
    create_icon size path w = Returns tt w' /\
    fs_files w' = <[path := PNG_file img]> (fs_files w) /\
    (forall other, other <> path -> fs_files w' !! other = fs_files w !! other) /\
    fs_dirs w' = fs_dirs w /\
    stdout w'
    = (stdout w ++ ["Created: " ++ path ++ " (" ++ str size ++ "x" ++ str size ++ ")"]%string)%list /\
    length (calls_added w (create_icon size path w)) = 5%nat.
Proof.
  intros H. eexists _, _. split; [apply create_icon_run; lia|].
  cbn [fs_files fs_dirs stdout]. split; [done|]. split.
  { intros other Hne. by rewrite lookup_insert_ne. }
  split; [done|]. split; [done|].
  by rewrite calls_added_create_icon by lia.
Qed.

(** X3: for positive sizes, writing twice to the same path keeps the second
    image only: after
    [create_icon s1 path] and then [create_icon s2 path] the files are those
    [create_icon s2 path] alone leaves. *)
Theorem X3_create_icon_overwrites (s1 s2 : Z) (path : string) (w : World) :
  0 < s1 -> 0 < s2 ->
  exists files,
    files_after ((create_icon s1 path;; create_icon s2 path) w) = Some files /\
    files_after (create_icon s2 path w) = Some files /\
    files !! path = Some (PNG_file (lock_image s2)).
Proof.
  intros H1 H2. eexists. split; [|split].
  - erewrite bind_returns by (apply create_icon_run; lia).
    rewrite create_icon_run by lia. cbn [files_after fs_files].
    by rewrite insert_insert_eq.
  - by rewrite create_icon_run by lia.
  - apply lookup_insert_eq.
Qed.

End IconEffects.

(** The statement of X1 at size -1. *)
Lemma X1_witness :
  -1 < 0 /\
  create_icon (R:=Reference.rasterizer) (-1) "a.png" Reference.empty_world
  = Raises ValueError Reference.empty_world.
Proof.
  split; [lia|].
  apply (X1_create_icon_negative_size (R:=Reference.rasterizer)). lia.
Defined.

(** The statement of X2 at size 32. *)
Lemma X2_witness :
  0 < 32 /\
  exists img w',
    create_icon (R:=Reference.rasterizer) 32 "a.png" Reference.empty_world
    = Returns tt w' /\
    fs_files w' = <[("a.png" : string) := PNG_file img]> (fs_files Reference.empty_world) /\
    (forall other, other <> "a.png" ->
       fs_files w' !! other = fs_files Reference.empty_world !! other) /\
    fs_dirs w' = fs_dirs Reference.empty_world /\
    stdout w'
    = (stdout Reference.empty_world
       ++ ["Created: " ++ "a.png" ++ " (" ++ str 32 ++ "x" ++ str 32 ++ ")"]%string)%list /\
    length (calls_added Reference.empty_world
              (create_icon (R:=Reference.rasterizer) 32 "a.png" Reference.empty_world))
    = 5%nat.
Proof.
  split; [lia|].
  apply (X2_create_icon_returns_and_frames (R:=Reference.rasterizer)). lia.
Defined.

(** The statement of X3 for the sizes 16 and then 32. *)
Lemma X3_witness :
  0 < 16 /\ 0 < 32 /\
  exists files,
    files_after ((create_icon (R:=Reference.rasterizer) 16 "a.png";;
                  create_icon (R:=Reference.rasterizer) 32 "a.png") Reference.empty_world)
    = Some files /\
    files_after (create_icon (R:=Reference.rasterizer) 32 "a.png" Reference.empty_world)
    = Some files /\
    files !! "a.png" = Some (PNG_file (lock_image (R:=Reference.rasterizer) 32)).
Proof.
  split; [lia|]. split; [lia|].
  apply (X3_create_icon_overwrites (R:=Reference.rasterizer)); lia.
Defined.

(** ** The colours and regions of the picture *)

Section PictureColours.
Context {R : Rasterizer}.

(** A pixel of the raster keeps its value or takes the ink of one of the
    calls. *)
Lemma render_palette calls img x y p0 :
  pixel_at img x y = Some p0 ->
  exists p, pixel_at (render calls img) x y = Some p /\
            (p = p0 \/ Exists (λ c, p = ink_of (call_fill c)) calls).
Proof.
  revert img p0. induction calls as [|c calls IH]; intros img p0 Hp.
  - exists p0. by split; [|left].
  - simpl.
    destruct (IH (paint (call_mask c) (ink_of (call_fill c)) img)
                 (if call_mask c x y then ink_of (call_fill c) else p0))
      as (p & Hrender & Hcases).
    { by rewrite pixel_at_paint, Hp. }
    exists p. split; [done|].
    destruct Hcases as [->|Hlater].
    + destruct (call_mask c x y); [right; by apply Exists_cons_hd|by left].
    + right. by apply Exists_cons_tl.
Qed.

(** X4: every pixel of the image [create_icon] writes has one of four
    values: transparent black, the shadow colour with alpha 100, the badge
    blue, or white; the colours [dark_color] and [light_color] never reach
    the image. *)
Theorem X4_four_colours (size : Z) (path : string) (w : World) (x y : Z) :
  0 <= x < size -> 0 <= y < size ->
  exists img p,
    produced_image (create_icon size path w) path = Some img /\
    pixel_at img x y = Some p /\
    (p = (0, 0, 0, 0) \/ p = (30, 65, 120, 100) \/
     p = (52, 115, 201, 255) \/ p = (255, 255, 255, 255)).
Proof.
  intros Hx Hy.
  destruct (render_palette (lock_calls size) (blank size) x y (0, 0, 0, 0))
    as (p & Hp & Hcases); [by apply pixel_at_blank|].
  exists (lock_image size), p.
  split; [apply produced_image_create_icon; lia|]. split; [done|].
  destruct Hcases as [->|Hink]; [by left|].
  unfold lock_calls in Hink.
  repeat (apply Exists_cons in Hink as [->|Hink]; [simpl; tauto|]).
  by apply Exists_nil in Hink.
Qed.

(** X5: below size 40 the shadow offset [size/40] is 0, so the shadow is
    drawn in the box of the badge and the badge paints over all of it: no
    pixel of the image has the shadow colour, and every alpha is 0 or 255. *)
Theorem X5_no_shadow_below_40 (size : Z) (path : string) (w : World) (x y : Z) :
  size < 40 -> 0 <= x < size -> 0 <= y < size ->
  exists img p,
    produced_image (create_icon size path w) path = Some img /\
    pixel_at img x y = Some p /\
    (p = (0, 0, 0, 0) \/ p = (52, 115, 201, 255) \/ p = (255, 255, 255, 255)) /\
    (alpha p = 0 \/ alpha p = 255).
Proof.
  intros Hsmall Hx Hy.
  assert (size / 40 = 0) as Hoff by zdiv.
  pose proof (pixel_at_blank size x y Hx Hy) as Hblank.
  cut (exists p, pixel_at (lock_image size) x y = Some p /\
         (p = (0, 0, 0, 0) \/ p = (52, 115, 201, 255) \/ p = (255, 255, 255, 255))).
  { intros (p & Hp & Hcol). exists (lock_image size), p.
    split; [apply produced_image_create_icon; lia|]. split; [done|].
    split; [done|]. destruct Hcol as [->|[->| ->]]; simpl; tauto. }
  unfold lock_image, lock_calls. rewrite Hoff, !Z.add_0_r.
  match goal with
  | |- context [render (?c1 :: ?c2 :: ?rest) _] =>
      set (shadow := c1); set (badge := c2); set (glyphs := rest)
  end.
  set (under := paint (call_mask badge) (ink_of (call_fill badge))
                  (paint (call_mask shadow) (ink_of (call_fill shadow)) (blank size))).
  assert (exists q, pixel_at under x y = Some q /\
                    (q = (0, 0, 0, 0) \/ q = (52, 115, 201, 255))) as (q & Hq & Hqc).
  { subst under. rewrite !pixel_at_paint, Hblank. simpl.
    destruct (rounded_rectangle_mask _ _ x y); eauto. }
  destruct (render_palette glyphs under x y q Hq) as (p & Hp & Hcases).
  exists p. split; [exact Hp|].
  destruct Hcases as [->|Hink]; [tauto|].
  subst glyphs.
  repeat (apply Exists_cons in Hink as [->|Hink]; [simpl; tauto|]).
  by apply Exists_nil in Hink.
Qed.

(** X6: the keyhole stem is drawn last and as an exact box, so nothing
    overdraws it: every pixel in columns [cx - kr/2 .. cx + kr/2] and rows
    [cy .. cy + (3*kr)/2], with [cx = size/2], [cy = size/2 + size/20] and
    [kr = size/12], is white and opaque.  The bottom row is the float
    [cy + kr*1.5] truncated. *)
Theorem X6_stem_is_white (size : Z) (path : string) (w : World) (x y : Z) :
  1 <= size ->
  size / 2 - size / 12 / 2 <= x <= size / 2 + size / 12 / 2 ->
  size / 2 + size / 20 <= y <= size / 2 + size / 20 + 3 * (size / 12) / 2 ->
  exists img,
    produced_image (create_icon size path w) path = Some img /\
    pixel_at img x y = Some (255, 255, 255, 255).
Proof.
  intros Hsize Hx Hy. exists (lock_image size).
  split; [apply produced_image_create_icon; lia|].
  unfold lock_image, lock_calls.
  match goal with
  | |- pixel_at (render [?c1; ?c2; ?c3; ?c4; ?c5] _) _ _ = _ =>
      change [c1; c2; c3; c4; c5] with ([c1; c2; c3; c4] ++ [c5])%list;
      set (stem := c5); set (under := [c1; c2; c3; c4])
  end.
  rewrite render_snoc, pixel_at_paint.
  destruct (render_defined under (blank size) x y) as [p Hp].
  { rewrite pixel_at_blank; [done| |]; zdiv. }
  rewrite Hp.
  assert (call_mask stem x y = true) as ->; [|done].
  apply in_rect_true. subst stem. simpl. zdiv.
Qed.

End PictureColours.

(** The statement of X4 at pixel (5, 5) of size 32. *)
Lemma X4_witness :
  0 <= 5 < 32 /\ 0 <= 5 < 32 /\
  exists img p,
    produced_image
      (create_icon (R:=Reference.rasterizer) 32 "a.png" Reference.empty_world) "a.png"
    = Some img /\
    pixel_at img 5 5 = Some p /\
    (p = (0, 0, 0, 0) \/ p = (30, 65, 120, 100) \/
     p = (52, 115, 201, 255) \/ p = (255, 255, 255, 255)).
Proof.
  split; [lia|]. split; [lia|].
  apply (X4_four_colours (R:=Reference.rasterizer)); lia.
Defined.

(** The statement of X5 at pixel (5, 5) of size 32. *)
Lemma X5_witness :
  32 < 40 /\ 0 <= 5 < 32 /\ 0 <= 5 < 32 /\
  exists img p,
    produced_image
      (create_icon (R:=Reference.rasterizer) 32 "a.png" Reference.empty_world) "a.png"
    = Some img /\
    pixel_at img 5 5 = Some p /\
    (p = (0, 0, 0, 0) \/ p = (52, 115, 201, 255) \/ p = (255, 255, 255, 255)) /\
    (alpha p = 0 \/ alpha p = 255).
Proof.
  split; [lia|]. split; [lia|]. split; [lia|].
  apply (X5_no_shadow_below_40 (R:=Reference.rasterizer)); lia.
Defined.

(** The statement of X6 at pixel (15, 20) of size 32, a corner of the stem. *)
Lemma X6_witness :
  1 <= 32 /\
  32 / 2 - 32 / 12 / 2 <= 15 <= 32 / 2 + 32 / 12 / 2 /\
  32 / 2 + 32 / 20 <= 20 <= 32 / 2 + 32 / 20 + 3 * (32 / 12) / 2 /\
  exists img,
    produced_image
      (create_icon (R:=Reference.rasterizer) 32 "a.png" Reference.empty_world) "a.png"
    = Some img /\
    pixel_at img 15 20 = Some (255, 255, 255, 255).
Proof.
  assert (32 / 2 - 32 / 12 / 2 <= 15 <= 32 / 2 + 32 / 12 / 2) as Hx by (vm_compute; split; discriminate).
  assert (32 / 2 + 32 / 20 <= 20 <= 32 / 2 + 32 / 20 + 3 * (32 / 12) / 2) as Hy
    by (vm_compute; split; discriminate).
  split; [lia|]. split; [exact Hx|]. split; [exact Hy|].
  apply (X6_stem_is_white (R:=Reference.rasterizer)); [lia|exact Hx|exact Hy].
Defined.

(** ** Where the picture lies on the canvas *)

Section PictureLayout.
Context {R : Rasterizer} {L : RasterizerLaws R}.

(** X7: the margins stay transparent.  A pixel left of column [size/10],
    or right of or below [size - size/10 + size/40], or above row [size/10]
    and outside the columns of the shackle, is [(0, 0, 0, 0)]. *)
Theorem X7_margins_transparent (size : Z) (path : string) (w : World) (x y : Z) :
  let padding := size / 10 in
  let box_size := size - 2 * padding in
  let shackle_x := padding + box_size / 2 - box_size / 2 / 2 in
  0 <= x < size -> 0 <= y < size ->
  x < padding \/
  padding + box_size + size / 40 < x \/
  padding + box_size + size / 40 < y \/
  (y < padding /\ (x < shackle_x \/ shackle_x + box_size / 2 < x)) ->
  exists img,
    produced_image (create_icon size path w) path = Some img /\
    pixel_at img x y = Some (0, 0, 0, 0).
Proof.
  intros padding box_size shackle_x Hx Hy Hmargin. exists (lock_image size).
  split; [apply produced_image_create_icon; lia|].
  apply lock_image_outside; [done|done|].
  unfold lock_calls. subst padding box_size shackle_x.
  repeat apply Forall_cons_2; try apply Forall_nil_2;
    apply in_rect_false; simpl; zdiv.
Qed.

End PictureLayout.

Section BoxLayout.
Context {R : Rasterizer}.

(** X8: from size 10 on, the boxes of the five drawing calls start at
    column 0 or later and end at column and row [size - 1] or earlier, so
    nothing is clipped at the left, right or bottom; the shackle box alone
    starts above row 0, and it straddles the top edge of the badge; the
    keyhole circle and stem lie inside the badge box. *)
Theorem X8_box_layout (size : Z) (path : string) (w : World) :
  10 <= size ->
  exists shadow badge shackle circle stem : Rect,
    map (λ c, px_box (call_box c)) (calls_added w (create_icon size path w))
    = [shadow; badge; shackle; circle; stem] /\
    Forall (λ b, 0 <= rx0 b /\ rx1 b <= size - 1 /\ ry1 b <= size - 1)
      [shadow; badge; shackle; circle; stem] /\
    Forall (λ b, 0 <= ry0 b) [shadow; badge; circle; stem] /\
    ry0 shackle < 0 /\
    ry0 shackle < ry0 badge <= ry1 shackle /\
    rx0 badge <= rx0 shackle /\ rx1 shackle <= rx1 badge /\
    Forall (λ b, rx0 badge <= rx0 b /\ rx1 b <= rx1 badge /\
                 ry0 badge <= ry0 b /\ ry1 b <= ry1 badge) [circle; stem].
Proof.
  intros H. rewrite calls_added_create_icon by lia. unfold lock_calls.
  eexists _, _, _, _, _. split; [reflexivity|].
  repeat split; repeat apply Forall_cons_2; try apply Forall_nil_2;
    simpl; zdiv.
Qed.

End BoxLayout.

(** The statement of X7 at pixel (1, 1) of size 32. *)
Lemma X7_witness :
  0 <= 1 < 32 /\ 1 < 32 / 10 /\
  exists img,
    produced_image
      (create_icon (R:=Reference.rasterizer) 32 "a.png" Reference.empty_world) "a.png"
    = Some img /\
    pixel_at img 1 1 = Some (0, 0, 0, 0).
Proof.
  assert (1 < 32 / 10) as Hleft by (vm_compute; reflexivity).
  split; [lia|]. split; [exact Hleft|].
  apply (X7_margins_transparent (L:=reference_laws) 32); [lia|lia|].
  left. exact Hleft.
Defined.

(** The statement of X8 at size 32, with the boxes worked out. *)
Lemma X8_witness :
  10 <= 32 /\
  exists shadow badge shackle circle stem : Rect,
    map (λ c, px_box (call_box c))
      (calls_added Reference.empty_world
         (create_icon (R:=Reference.rasterizer) 32 "a.png" Reference.empty_world))
    = [shadow; badge; shackle; circle; stem] /\
    Forall (λ b, 0 <= rx0 b /\ rx1 b <= 32 - 1 /\ ry1 b <= 32 - 1)
      [shadow; badge; shackle; circle; stem] /\
    Forall (λ b, 0 <= ry0 b) [shadow; badge; circle; stem] /\
    ry0 shackle < 0 /\
    ry0 shackle < ry0 badge <= ry1 shackle /\
    rx0 badge <= rx0 shackle /\ rx1 shackle <= rx1 badge /\
    Forall (λ b, rx0 badge <= rx0 b /\ rx1 b <= rx1 badge /\
                 ry0 badge <= ry0 b /\ ry1 b <= ry1 badge) [circle; stem].
Proof.
  split; [lia|].
  apply (X8_box_layout (R:=Reference.rasterizer)). lia.
Defined.

(** ** More on the ICO packer *)

Section PackerEffects.
Context {R : Rasterizer}.

(** The loop stops at the first negative size; the frames before it have
    been drawn. *)
Lemma for_each_frames_raises good bad rest acc w :
  Forall (λ s, 0 <= s) good -> bad < 0 ->
  for_each (good ++ bad :: rest)
    (λ size icons, img ← ico_frame size; mret (icons ++ [img])%list) acc w
  = Raises ValueError (logged w (flat_map lock_calls good)).
Proof.
  intros Hgood Hbad. revert acc w.
  induction Hgood as [|s good Hs Hgood IH]; intros acc w.
  - cbn [app for_each flat_map]. rewrite logged_nil.
    erewrite bind_raises; [done|].
    by erewrite bind_raises by (by apply ico_frame_raises).
  - cbn [app for_each flat_map].
    erewrite bind_returns; last first.
    { erewrite bind_returns by (by apply ico_frame_run). reflexivity. }
    by rewrite IH, logged_logged.
Qed.

(** X9: for a non-empty list of positive sizes [create_ico_file]
    draws one frame per size, in order, but the file it saves holds the
    frame of the first size only: the [s] by [s] image [create_icon] renders
    for it.  With it go one pair [(z, z)] per input size, in input order and
    with repetitions; one line listing the sizes is printed; no other path
    changes. *)
Theorem X9_ico_saves_first_frame (s : Z) (rest : list Z) (path : string) (w : World) :
  Forall (λ z, 0 < z) (s :: rest) ->
  exists first w',
    create_ico_file (s :: rest) path w = Returns tt w' /\
    fs_files w'
    = <[path := ICO_file first (map (λ z, (z, z)) (s :: rest))]> (fs_files w) /\
    produced_image (create_icon s path w) path = Some first /\
    im_width first = s /\ im_height first = s /\
    calls_added w (create_ico_file (s :: rest) path w)
    = flat_map (λ z, calls_added w (create_icon z path w)) (s :: rest) /\
    stdout w'
    = (stdout w ++ ["Created: " ++ path ++ " (ICO with sizes: "
                      ++ str_list (s :: rest) ++ ")"]%string)%list.
Proof.
  intros Hpos.
  assert (Forall (λ z, 0 <= z) (s :: rest)) as H.
  { eapply Forall_impl; [exact Hpos|]. intros; simpl in *; lia. }
  exists (lock_image s). eexists.
  split; [by apply create_ico_file_run|].
  cbn [fs_files stdout]. split; [done|].
  split; [apply produced_image_create_icon; inversion H; subst; done|].
  destruct (lock_image_dims s) as (_ & Hw & Hh).
  split; [done|]. split; [done|]. split; [|done].
  rewrite create_ico_file_run by done. unfold calls_added at 1.
  cbn [draw_log]. rewrite drop_app_length. by apply frames_calls.
Qed.

(** X10: a negative size anywhere in the list makes [create_ico_file]
    raise [ValueError] when the loop reaches it.  The frames before it have
    been drawn, but no file is written and nothing is printed. *)
Theorem X10_ico_negative_size (good : list Z) (bad : Z) (rest : list Z)
    (path : string) (w : World) :
  Forall (λ z, 0 <= z) good -> bad < 0 ->
  exists w',
    create_ico_file (good ++ bad :: rest) path w = Raises ValueError w' /\
    fs_files w' = fs_files w /\ fs_dirs w' = fs_dirs w /\ stdout w' = stdout w /\
    draw_log w' = (draw_log w ++ flat_map lock_calls good)%list.
Proof.
  intros Hgood Hbad. eexists. split.
  - unfold create_ico_file, ico_frames.
    erewrite bind_raises; [reflexivity|].
    by apply for_each_frames_raises.
  - done.
Qed.


End PackerEffects.

(** The statement of X9 for the sizes [32, 16, 16]. *)
Lemma X9_witness :
  Forall (λ z, 0 < z) [32; 16; 16] /\
  exists first w',
    create_ico_file (R:=Reference.rasterizer) [32; 16; 16] "a.ico" Reference.empty_world
    = Returns tt w' /\
    fs_files w'
    = <[("a.ico" : string) := ICO_file first (map (λ z, (z, z)) [32; 16; 16])]>
        (fs_files Reference.empty_world) /\
    produced_image
      (create_icon (R:=Reference.rasterizer) 32 "a.ico" Reference.empty_world) "a.ico"
    = Some first /\
    im_width first = 32 /\ im_height first = 32 /\
    calls_added Reference.empty_world
      (create_ico_file (R:=Reference.rasterizer) [32; 16; 16] "a.ico" Reference.empty_world)
    = flat_map (λ z, calls_added Reference.empty_world
                       (create_icon (R:=Reference.rasterizer) z "a.ico" Reference.empty_world))
        [32; 16; 16] /\
    stdout w'
    = (stdout Reference.empty_world
       ++ ["Created: " ++ "a.ico" ++ " (ICO with sizes: "
             ++ str_list [32; 16; 16] ++ ")"]%string)%list.
Proof.
  assert (Forall (λ z, 0 < z) [32; 16; 16]) as H by (repeat constructor; lia).
  split; [exact H|].
  apply (X9_ico_saves_first_frame (R:=Reference.rasterizer)). exact H.
Defined.

(** The statement of X10 for the sizes [16, -1, 32]. *)
Lemma X10_witness :
  Forall (λ z, 0 <= z) [16] /\ -1 < 0 /\
  exists w',
    create_ico_file (R:=Reference.rasterizer) ([16] ++ -1 :: [32])%list "a.ico"
      Reference.empty_world
    = Raises ValueError w' /\
    fs_files w' = fs_files Reference.empty_world /\
    fs_dirs w' = fs_dirs Reference.empty_world /\
    stdout w' = stdout Reference.empty_world /\
    draw_log w' = (draw_log Reference.empty_world ++ flat_map lock_calls [16])%list.
Proof.
  assert (Forall (λ z, 0 <= z) [16]) as H by (repeat constructor; lia).
  split; [exact H|]. split; [lia|].
  apply (X10_ico_negative_size (R:=Reference.rasterizer)); [exact H|lia].
Defined.


(** ** Running the driver again *)

Section DriverAgain.
Context {R : Rasterizer}.

Lemma insert_five_again {A} (m : gmap string A) k1 k2 k3 k4 k5 v1 v2 v3 v4 v5 :
  let five := λ m : gmap string A,
    <[k5:=v5]> (<[k4:=v4]> (<[k3:=v3]> (<[k2:=v2]> (<[k1:=v1]> m)))) in
  five (five m) = five m.
Proof.
  intros five. subst five. apply map_eq. intros k.
  rewrite !lookup_insert. repeat case_decide; done.
Qed.

(** X12: a second run of [main] changes nothing on disk: after it the
    files, at every path, and the directories are those the first run
    left. *)
Theorem X12_second_run_changes_no_file (w : World) :
  exists w1 w2,
    main w = Returns tt w1 /\ main w1 = Returns tt w2 /\
    fs_files w2 = fs_files w1 /\ fs_dirs w2 = fs_dirs w1.
Proof.
  destruct (main_run w) as (out1 & Hrun1).
  match type of Hrun1 with _ = Returns tt ?x => set (w1 := x) in * end.
  destruct (main_run w1) as (out2 & Hrun2).
  exists w1. eexists. split; [exact Hrun1|]. split; [exact Hrun2|].
  cbn [fs_files fs_dirs]. split.
  - subst w1. cbn [fs_files]. apply insert_five_again.
  - subst w1. cbn [fs_dirs]. apply set_eq. intros d.
    rewrite !elem_of_union, !elem_of_singleton. tauto.
Qed.

End DriverAgain.
